(** * Manus MCP bridge ([src/server.py]): request building and response handling

    The server is a thin bridge: five tools, four of which send one HTTP
    request to the Manus API and pass the response through
    [_handle_response].  The development embeds the Python code as
    executable definitions in an exception-over-state monad whose state is
    the outside world (the network and the log of requests sent), and proves
    the properties of the request/response contract. *)

From Stdlib Require Import String Ascii ZArith List Bool Lia.
From Stdlib Require Import DecimalString PrimFloat.
From ExtLib Require Import Structures.Monad Structures.MonadState Structures.MonadExc.
From ExtLib Require Import Data.Monads.StateMonad Data.Monads.EitherMonad.
Import ListNotations.
Import MonadNotation.
Local Open Scope string_scope.
Local Open Scope monad_scope.

Set Implicit Arguments.
Set Warnings "-register-all".

(* ===================================================================== *)
(** ** Python values *)
(* ===================================================================== *)

Module Py.

(** The values that travel through the bridge: what [json.loads] produces
    and what the tools put in payloads, query parameters and results.
    A [dict] keeps its insertion order, so it is an association list; the
    keys of every dict met here are strings. *)
Inductive pyval : Type :=
| PNone
| PBool (b : bool)
| PInt (n : Z)
| PFloat (x : float)
| PStr (s : string)
| PList (items : list pyval)
| PDict (entries : list (string * pyval)).

(** The exceptions that can occur in the code paths of the server. *)
Inductive PyExc : Type :=
| HTTPStatusError (message : string)   (* httpx: raised by raise_for_status *)
| TransportError (kind : string)       (* httpx: connect, timeout, DNS, ... *)
| JSONDecodeError                      (* response.json() on an undecodable body *)
| AttributeError (attr : string).      (* e.g. [.get] on a list *)

(** Truth value testing, as used by [if x:] and [x or y]. *)
Class Truthy (A : Type) := truthy : A -> bool.

#[global] Instance Truthy_str : Truthy string :=
  fun s => match s with EmptyString => false | String _ _ => true end.

#[global] Instance Truthy_int : Truthy Z :=
  fun n => negb (Z.eqb n 0).

(** [Optional[T]]: [None] is false, a value has its own truth value. *)
#[global] Instance Truthy_optional (A : Type) `{Truthy A} : Truthy (option A) :=
  fun o => match o with None => false | Some a => truthy a end.

(** [x or y] for [x : Optional[T]] and [y : T]: [x] when it is true, else [y]. *)
Definition py_or (A : Type) `{Truthy A} (x : option A) (y : A) : A :=
  match x with
  | Some a => if truthy a then a else y
  | None => y
  end.

(** An [Optional[str]] as a Python value. *)
Definition py_optstr (o : option string) : pyval :=
  match o with
  | None => PNone
  | Some s => PStr s
  end.

(** [d.get(key)] on the entries of a dict. *)
Fixpoint dict_get (entries : list (string * pyval)) (key : string) : option pyval :=
  match entries with
  | [] => None
  | (k, v) :: rest => if String.eqb k key then Some v else dict_get rest key
  end.

(** [d[key] = value]: an existing key keeps its position, a new key goes last. *)
Fixpoint dict_set (entries : list (string * pyval)) (key : string) (value : pyval)
  : list (string * pyval) :=
  match entries with
  | [] => [(key, value)]
  | (k, v) :: rest =>
      if String.eqb k key then (k, value) :: rest
      else (k, v) :: dict_set rest key value
  end.

(** [list(d)]: the keys of a dict, in order. *)
Definition dict_keys (entries : list (string * pyval)) : list string :=
  map fst entries.

(** [str(n)] for an [int]. *)
Definition str_of_int (n : Z) : string :=
  NilZero.string_of_int (Z.to_int n).

End Py.
Export Py.

(* ===================================================================== *)
(** ** The httpx client and the outside world *)
(* ===================================================================== *)

Module Httpx.

Inductive Method : Type := GET | POST.

(** One outbound request, with what the server passes to [client.get] and
    [client.post]: [params=] and [json=] are absent unless given. *)
Record Request : Type := mkRequest {
  req_method : Method;
  req_url : string;
  req_headers : list (string * string);
  req_params : option (list (string * pyval));
  req_json : option pyval;
  req_timeout : float
}.

(** A response as the server observes it: the status code, and what
    [response.json()] gives ([None] when the body does not decode, in which
    case the call raises). *)
Record Response : Type := mkResponse {
  status_code : Z;
  reason_phrase : string;
  body_json : option pyval
}.

(** What comes back from the network for a request: a response, or a
    transport failure raised by the client. *)
Inductive Reply : Type :=
| Received (response : Response)
| Failed (exc : PyExc).

(** The world the tools act on: the network, and the requests sent so far. *)
Record World : Type := mkWorld {
  network : Request -> Reply;
  sent : list Request
}.

(** Python code that may raise and may talk to the network. *)
Definition IO : Type -> Type := eitherT PyExc (state World).

(** What the libraries under the server render as text: the message of the
    [HTTPStatusError] that httpx builds for a response, and [repr] for the
    values whose [str] is not spelled out in [py_str]. *)
Class Externals : Type := {
  status_error_text : Response -> string;
  py_repr : pyval -> string
}.

(** [httpx.Client(timeout=...)]. *)
Record Client : Type := mkClient { timeout : float }.

(** [response.is_success]: the 2xx codes. *)
Definition is_success (response : Response) : bool :=
  (200 <=? status_code response)%Z && (status_code response <=? 299)%Z.

(** Sending: the request is logged, then the network answers or fails. *)
Definition client_send (req : Request) : IO Response :=
  w <- get ;;
  put {| network := network w; sent := sent w ++ [req] |} ;;
  match network w req with
  | Received response => ret response
  | Failed exc => raise exc
  end.

(** [client.post(url, headers=headers, json=payload)]. *)
Definition client_post (client : Client) (url : string)
    (headers : list (string * string)) (json : pyval) : IO Response :=
  client_send {| req_method := POST; req_url := url; req_headers := headers;
                 req_params := None; req_json := Some json;
                 req_timeout := timeout client |}.

(** [client.get(url, headers=headers)] and
    [client.get(url, headers=headers, params=params)]. *)
Definition client_get (client : Client) (url : string)
    (headers : list (string * string))
    (params : option (list (string * pyval))) : IO Response :=
  client_send {| req_method := GET; req_url := url; req_headers := headers;
                 req_params := params; req_json := None;
                 req_timeout := timeout client |}.

Section Response_methods.
Context `{Externals}.

(** [response.raise_for_status()]. *)
Definition raise_for_status (response : Response) : IO unit :=
  if is_success response then ret tt
  else raise (HTTPStatusError (status_error_text response)).

(** [response.json()]. *)
Definition response_json (response : Response) : IO pyval :=
  match body_json response with
  | Some v => ret v
  | None => raise JSONDecodeError
  end.

(** [str(v)], which is what an f-string field [{v}] inserts. *)
Definition py_str (v : pyval) : string :=
  match v with
  | PStr s => s
  | PNone => "None"
  | PBool true => "True"
  | PBool false => "False"
  | PInt n => str_of_int n
  | PFloat _ | PList _ | PDict _ => py_repr v
  end.

(** [v.get(key, default)]: only a dict has the method. *)
Definition py_get (v : pyval) (key : string) (default : pyval) : IO pyval :=
  match v with
  | PDict entries =>
      match dict_get entries key with
      | Some x => ret x
      | None => ret default
      end
  | _ => raise (AttributeError "get")
  end.

End Response_methods.

(** Running a computation against a network, from an empty request log. *)
Definition run (A : Type) (net : Request -> Reply) (c : IO A) : (PyExc + A) * World :=
  runState (unEitherT c) {| network := net; sent := [] |}.

(** What the caller gets: the returned value, or the exception raised. *)
Definition outcome (A : Type) (net : Request -> Reply) (c : IO A) : PyExc + A :=
  fst (run net c).

(** The requests that went out, in order. *)
Definition requests (A : Type) (net : Request -> Reply) (c : IO A) : list Request :=
  sent (snd (run net c)).

(** The computation sent one request and the network answered it with
    [response]. *)
Definition receives (A : Type) (net : Request -> Reply) (c : IO A)
    (response : Response) : Prop :=
  exists req, requests net c = [req] /\ net req = Received response.

End Httpx.
Export Httpx.

(* ===================================================================== *)
(** ** The server *)
(* ===================================================================== *)

Module Server.

(** The module-level configuration, read once from the environment. *)
Record Config : Type := mkConfig {
  MANUS_API_KEY : string;
  MANUS_API_BASE : string;
  MANUS_AGENT_PROFILE : string
}.

(** [os.environ.get(name, default)]. *)
Definition environ_get (environ : string -> option string) (name default : string)
  : string :=
  match environ name with
  | Some v => v
  | None => default
  end.

Definition load_config (environ : string -> option string) : Config :=
  {| MANUS_API_KEY := environ_get environ "MANUS_API_KEY" "";
     MANUS_API_BASE := environ_get environ "MANUS_API_BASE" "https://api.manus.im/v1";
     MANUS_AGENT_PROFILE := environ_get environ "MANUS_AGENT_PROFILE" "manus-1.6" |}.

(** *** Calling a tool

    A caller names a tool and gives some of its arguments; a parameter the
    caller leaves out takes the default of the [def]. *)
Inductive arg (A : Type) : Type :=
| Omitted
| Passed (a : A).

Arguments Omitted {A}.

Definition bind_arg (A : Type) (default : A) (x : arg A) : A :=
  match x with
  | Omitted => default
  | Passed a => a
  end.

Inductive ToolCall : Type :=
| Call_create_task (prompt : string)
    (agent_profile task_mode project_id : arg (option string))
| Call_get_task_status (task_id : string)
| Call_list_tasks (status : arg (option string)) (limit : arg (option Z))
    (project_id : arg (option string))
| Call_continue_task (task_id prompt : string)
| Call_get_server_info.

Section Tools.
Context `{Externals}.
Variable cfg : Config.

Definition _get_headers : list (string * string) :=
  [("API_KEY", MANUS_API_KEY cfg); ("Content-Type", "application/json")].

(** [_handle_response]: the outer [try] covers [raise_for_status] and the
    decoding of a successful body and catches [HTTPStatusError] only; the
    inner [try] covers the decoding of the error body, the lookup of
    ["message"] and the formatting, and its bare [except] catches
    everything, leaving the first [error_msg] in place. *)
Definition _handle_response (response : Response) : IO pyval :=
  catch
    (raise_for_status response ;;
     response_json response)
    (fun exc =>
       match exc with
       | HTTPStatusError e =>
           let error_msg := "Manus API Error: " ++ e in
           error_msg <-
             catch
               (error_body <- response_json response ;;
                message <- py_get error_body "message" (PStr e) ;;
                ret ("Manus API Error: " ++ py_str message))
               (fun _ => ret error_msg) ;;
           ret (PDict [("error", PStr error_msg);
                       ("status_code", PInt (status_code response))])
       | _ => raise exc
       end).

Definition create_task (prompt : string) (agent_profile task_mode project_id : option string)
  : IO pyval :=
  let url := MANUS_API_BASE cfg ++ "/tasks" in
  let payload :=
    [("prompt", PStr prompt);
     ("agentProfile", PStr (py_or agent_profile (MANUS_AGENT_PROFILE cfg)));
     ("taskMode", PStr (py_or task_mode "agent"))] in
  let payload :=
    if truthy project_id
    then dict_set payload "projectId" (py_optstr project_id)
    else payload in
  let client := {| timeout := 60 |} in
  response <- client_post client url _get_headers (PDict payload) ;;
  _handle_response response.

Definition get_task_status (task_id : string) : IO pyval :=
  let url := MANUS_API_BASE cfg ++ "/tasks/" ++ task_id in
  let client := {| timeout := 30 |} in
  response <- client_get client url _get_headers None ;;
  _handle_response response.

Definition list_tasks (status : option string) (limit : option Z)
    (project_id : option string) : IO pyval :=
  let url := MANUS_API_BASE cfg ++ "/tasks" in
  let params := [("limit", PInt (py_or limit 20%Z))] in
  let params :=
    if truthy status
    then dict_set params "status" (PList [py_optstr status])
    else params in
  let params :=
    if truthy project_id
    then dict_set params "project_id" (py_optstr project_id)
    else params in
  let client := {| timeout := 30 |} in
  response <- client_get client url _get_headers (Some params) ;;
  _handle_response response.

Definition continue_task (task_id prompt : string) : IO pyval :=
  let url := MANUS_API_BASE cfg ++ "/tasks" in
  let payload :=
    [("prompt", PStr prompt);
     ("agentProfile", PStr (MANUS_AGENT_PROFILE cfg));
     ("taskId", PStr task_id)] in
  let client := {| timeout := 60 |} in
  response <- client_post client url _get_headers (PDict payload) ;;
  _handle_response response.

Definition get_server_info : IO pyval :=
  ret (PDict [("server_name", PStr "Manus AI MCP Server");
              ("version", PStr "1.0.0");
              ("description", PStr "Bridge between Poke AI and Manus AI");
              ("manus_api_base", PStr (MANUS_API_BASE cfg));
              ("agent_profile", PStr (MANUS_AGENT_PROFILE cfg))]).

Definition call_tool (c : ToolCall) : IO pyval :=
  match c with
  | Call_create_task prompt agent_profile task_mode project_id =>
      create_task prompt
        (bind_arg None agent_profile)
        (bind_arg (Some "agent") task_mode)
        (bind_arg None project_id)
  | Call_get_task_status task_id => get_task_status task_id
  | Call_list_tasks status limit project_id =>
      list_tasks
        (bind_arg None status)
        (bind_arg (Some 20%Z) limit)
        (bind_arg None project_id)
  | Call_continue_task task_id prompt => continue_task task_id prompt
  | Call_get_server_info => get_server_info
  end.

End Tools.

(** The four tools that call the remote API. *)
Definition remote (c : ToolCall) : bool :=
  match c with
  | Call_get_server_info => false
  | _ => true
  end.

(** *** Reading a request

    The field [key] of a request's JSON body, and its query parameter
    [key], when the request has them. *)
Definition json_field (req : Request) (key : string) : option pyval :=
  match req_json req with
  | Some (PDict entries) => dict_get entries key
  | _ => None
  end.

Definition query_param (req : Request) (key : string) : option pyval :=
  match req_params req with
  | Some params => dict_get params key
  | None => None
  end.

(** *** The two shapes of a result

    The error mapping built for a failed call, and the property that a
    result is, for a response, one of the two shapes: the decoded body of a
    2xx response, or the error mapping of a non-2xx response. *)
Definition error_envelope (msg : string) (code : Z) : pyval :=
  PDict [("error", PStr msg); ("status_code", PInt code)].

Definition is_envelope (response : Response) (result : PyExc + pyval) : Prop :=
  (is_success response = true /\
   exists v, body_json response = Some v /\ result = inr v)
  \/
  (is_success response = false /\
   exists msg, result = inr (error_envelope msg (status_code response))).

End Server.
Export Server.

(* ===================================================================== *)
(** ** Concrete data for the examples *)
(* ===================================================================== *)

Module Sample.

(** A rendering of the library texts, for running the tools on examples. *)
Definition externals : Externals :=
  {| status_error_text := fun response =>
       "HTTP error " ++ str_of_int (status_code response) ++ " " ++ reason_phrase response;
     py_repr := fun _ => "<object>" |}.

(** The configuration of an empty environment: every default applies. *)
Definition cfg : Config := load_config (fun _ => None).

Definition not_found : Response :=
  {| status_code := 404; reason_phrase := "Not Found";
     body_json := Some (PDict [("message", PStr "not found")]) |}.

Definition server_error : Response :=
  {| status_code := 500; reason_phrase := "Internal Server Error";
     body_json := None |}.

Definition created : Response :=
  {| status_code := 200; reason_phrase := "OK";
     body_json := Some (PDict [("task_id", PStr "t-1")]) |}.

Definition no_content : Response :=
  {| status_code := 204; reason_phrase := "No Content";
     body_json := None |}.

(** A network that answers every request with the same response. *)
Definition answering (response : Response) : Request -> Reply :=
  fun _ => Received response.

(** A tool call under the sample configuration and renderings. *)
Definition call (c : ToolCall) : IO pyval :=
  @call_tool externals cfg c.

(** A network on which every request fails to connect. *)
Definition unreachable : Request -> Reply :=
  fun _ => Failed (TransportError "ConnectError").

(** An environment that sets the agent profile to the empty string and
    nothing else. *)
Definition empty_profile_environ (name : string) : option string :=
  if String.eqb name "MANUS_AGENT_PROFILE" then Some "" else None.

(** Error responses whose JSON body is a mapping with a null message, a
    mapping without a message, and a list. *)
Definition null_message : Response :=
  {| status_code := 422; reason_phrase := "Unprocessable Entity";
     body_json := Some (PDict [("message", PNone)]) |}.

Definition detail_only : Response :=
  {| status_code := 400; reason_phrase := "Bad Request";
     body_json := Some (PDict [("detail", PStr "bad prompt")]) |}.

Definition list_body : Response :=
  {| status_code := 502; reason_phrase := "Bad Gateway";
     body_json := Some (PList [PStr "upstream"]) |}.

End Sample.

(* ===================================================================== *)
(** ** Running the tools *)
(* ===================================================================== *)

Unset Implicit Arguments.

(** [_handle_response] leaves the world alone, and its result is decided by
    the class of the status code and by whether the body decodes. *)
Section Running.
Context `{Externals}.

Lemma handle_response_success (response : Response) (v : pyval) (w : World) :
  is_success response = true -> body_json response = Some v ->
  runState (unEitherT (_handle_response response)) w = (inr v, w).
Proof.
  intros Hs Hb. unfold _handle_response, raise_for_status, response_json.
  rewrite Hs, Hb. reflexivity.
Qed.

Lemma handle_response_undecodable (response : Response) (w : World) :
  is_success response = true -> body_json response = None ->
  runState (unEitherT (_handle_response response)) w = (inl JSONDecodeError, w).
Proof.
  intros Hs Hb. unfold _handle_response, raise_for_status, response_json.
  rewrite Hs, Hb. reflexivity.
Qed.

Lemma handle_response_failure (response : Response) (w : World) :
  is_success response = false ->
  runState (unEitherT (_handle_response response)) w =
  (inr (error_envelope
          ("Manus API Error: " ++
           match body_json response with
           | Some (PDict entries) =>
               match dict_get entries "message" with
               | Some message => py_str message
               | None => status_error_text response
               end
           | _ => status_error_text response
           end)
          (status_code response)), w).
Proof.
  intros Hs. unfold _handle_response, raise_for_status, response_json.
  rewrite Hs.
  destruct (body_json response) as [[| | | | | |entries]|]; try reflexivity.
  cbn. destruct (dict_get entries "message"); reflexivity.
Qed.

Lemma run_send (A : Type) (net : Request -> Reply) (req : Request) (k : Response -> IO A) :
  run net (bind (client_send req) k) =
  match net req with
  | Received response => runState (unEitherT (k response)) {| network := net; sent := [req] |}
  | Failed exc => (inl exc, {| network := net; sent := [req] |})
  end.
Proof.
  unfold run, client_send. cbn. destruct (net req); cbn; [|reflexivity].
  destruct (runState (unEitherT (k response)) _). reflexivity.
Qed.

Lemma handle_response_world (net : Request -> Reply) (response : Response) (w : World) :
  runState (unEitherT (_handle_response response)) w =
  (outcome net (_handle_response response), w).
Proof.
  unfold outcome, run.
  destruct (is_success response) eqn:Hs.
  - destruct (body_json response) as [v|] eqn:Hb.
    + now do 2 rewrite (handle_response_success _ v _ Hs Hb).
    + now do 2 rewrite (handle_response_undecodable _ _ Hs Hb).
  - now do 2 rewrite (handle_response_failure _ _ Hs).
Qed.

Lemma remote_call_run (cfg : Config) (c : ToolCall) :
  remote c = true ->
  exists req, forall net,
    run net (call_tool cfg c) =
    (match net req with
     | Received response => outcome net (_handle_response response)
     | Failed exc => inl exc
     end,
     {| network := net; sent := [req] |}).
Proof.
  destruct c; intros Hr; try discriminate Hr; eexists; intros net;
    unfold call_tool, create_task, get_task_status, list_tasks, continue_task,
      client_post, client_get;
    cbv zeta; rewrite run_send;
    lazymatch goal with
    | |- match net ?sent_req with _ => _ end = (match net ?e with _ => _ end, _) =>
        unify e sent_req
    end;
    (destruct (net _); [rewrite (handle_response_world net)|]; reflexivity).
Qed.

Lemma local_call_run (cfg : Config) (net : Request -> Reply) :
  run net (call_tool cfg Call_get_server_info) =
  (outcome net (get_server_info cfg), {| network := net; sent := [] |}).
Proof. reflexivity. Qed.

Lemma receives_outcome (cfg : Config) (c : ToolCall) (net : Request -> Reply) (response : Response) :
  receives net (call_tool cfg c) response ->
  outcome net (call_tool cfg c) = outcome net (_handle_response response).
Proof.
  intros [req [Hsent Hnet]].
  destruct (remote c) eqn:Hr.
  - destruct (remote_call_run cfg c Hr) as [req0 Hrun].
    unfold requests in Hsent. unfold outcome at 1. rewrite Hrun in *. cbn in *.
    injection Hsent as ->. now rewrite Hnet.
  - destruct c; try discriminate Hr. discriminate Hsent.
Qed.
End Running.

(* ===================================================================== *)
(** ** The response contract of the remote tools *)
(* ===================================================================== *)

(** Only a remote tool receives a response. *)
Lemma receives_remote `{Externals} (cfg : Config) (c : ToolCall)
    (net : Request -> Reply) (response : Response) :
  receives net (call_tool cfg c) response -> remote c = true.
Proof.
  intros [req [Hsent _]]. destruct c; try reflexivity. discriminate Hsent.
Qed.

(** The three cases of a response received by a remote tool: the decoded
    body of a 2xx response, the error mapping of a non-2xx response, or, for
    a 2xx response whose body does not decode, the decoding error. *)
Lemma remote_call_outcome_cases `{Externals} (cfg : Config) (c : ToolCall)
    (net : Request -> Reply) (response : Response) :
  receives net (call_tool cfg c) response ->
  is_envelope response (outcome net (call_tool cfg c))
  \/ (is_success response = true /\ body_json response = None /\
      outcome net (call_tool cfg c) = inl JSONDecodeError).
Proof.
  intros Hrecv. rewrite (receives_outcome cfg c net response Hrecv).
  unfold outcome, run, is_envelope.
  destruct (is_success response) eqn:Hs.
  - destruct (body_json response) as [v|] eqn:Hb.
    + left. left. split; [reflexivity|]. exists v.
      now rewrite (handle_response_success _ v _ Hs Hb).
    + right. now rewrite (handle_response_undecodable _ _ Hs Hb).
  - left. right. split; [reflexivity|]. eexists.
    rewrite (handle_response_failure _ _ Hs). reflexivity.
Qed.

(** C1, as amended.  For every response received by a remote tool
    ([create_task], [get_task_status], [list_tasks], [continue_task]) that
    is non-2xx, or whose body decodes as JSON, the caller gets a value of one
    of the two shapes: the decoded body of a 2xx response, or the mapping
    [{error, status_code}] of a non-2xx response. *)
Theorem remote_call_outcome_shapes `{Externals} (cfg : Config) (c : ToolCall)
    (net : Request -> Reply) (response : Response) :
  receives net (call_tool cfg c) response ->
  is_success response = false \/ body_json response <> None ->
  is_envelope response (outcome net (call_tool cfg c)).
Proof.
  intros Hrecv Hcovered.
  destruct (remote_call_outcome_cases cfg c net response Hrecv)
    as [Henv | [Hs [Hb _]]]; [exact Henv|].
  destruct Hcovered as [Hf | Hd]; [congruence | contradiction].
Qed.

Lemma remote_call_outcome_shapes_witness :
  receives (Sample.answering Sample.not_found)
    (Sample.call (Call_get_task_status "t-1")) Sample.not_found
  /\ is_envelope Sample.not_found
       (outcome (Sample.answering Sample.not_found)
          (Sample.call (Call_get_task_status "t-1"))).
Proof.
  split.
  - eexists. split; reflexivity.
  - apply (@remote_call_outcome_shapes Sample.externals Sample.cfg).
    + eexists. split; reflexivity.
    + left. reflexivity.
Defined.

(** C1, as stated, fails: [get_task_status] receives a 204 response with no
    JSON body; the result is neither of the two shapes, since the decoding
    error is raised. *)
Lemma success_without_json_is_no_envelope :
  receives (Sample.answering Sample.no_content)
    (Sample.call (Call_get_task_status "t-1")) Sample.no_content
  /\ outcome (Sample.answering Sample.no_content)
       (Sample.call (Call_get_task_status "t-1")) = inl JSONDecodeError
  /\ ~ is_envelope Sample.no_content
         (outcome (Sample.answering Sample.no_content)
            (Sample.call (Call_get_task_status "t-1"))).
Proof.
  split; [|split].
  - eexists. split; reflexivity.
  - reflexivity.
  - intros [[_ [v [Hb _]]] | [Hs _]]; discriminate.
Qed.

(** C2.  For every remote tool, a 404 response whose JSON body is
    [{"message": "not found"}] gives the result
    [{"error": "Manus API Error: not found", "status_code": 404}]. *)
Theorem not_found_envelope `{Externals} (cfg : Config) (c : ToolCall)
    (net : Request -> Reply) (response : Response) :
  receives net (call_tool cfg c) response ->
  status_code response = 404%Z ->
  body_json response = Some (PDict [("message", PStr "not found")]) ->
  outcome net (call_tool cfg c) =
  inr (PDict [("error", PStr "Manus API Error: not found");
              ("status_code", PInt 404)]).
Proof.
  intros Hrecv Hcode Hbody. rewrite (receives_outcome cfg c net response Hrecv).
  assert (Hs : is_success response = false)
    by (unfold is_success; rewrite Hcode; reflexivity).
  unfold outcome, run. rewrite (handle_response_failure _ _ Hs).
  rewrite Hbody, Hcode. reflexivity.
Qed.

Lemma not_found_envelope_witness :
  receives (Sample.answering Sample.not_found)
    (Sample.call (Call_continue_task "t-1" "go on")) Sample.not_found
  /\ outcome (Sample.answering Sample.not_found)
       (Sample.call (Call_continue_task "t-1" "go on")) =
     inr (PDict [("error", PStr "Manus API Error: not found");
                 ("status_code", PInt 404)]).
Proof.
  split.
  - eexists. split; reflexivity.
  - apply (@not_found_envelope Sample.externals Sample.cfg _ _ Sample.not_found).
    + eexists. split; reflexivity.
    + reflexivity.
    + reflexivity.
Defined.

(** C3.  For every remote tool, a non-2xx response whose body does not
    decode as JSON gives a result, not an exception: a mapping whose [error]
    is a non-empty string and whose [status_code] is the status of the
    response. *)
Theorem undecodable_error_envelope `{Externals} (cfg : Config) (c : ToolCall)
    (net : Request -> Reply) (response : Response) :
  receives net (call_tool cfg c) response ->
  is_success response = false ->
  body_json response = None ->
  exists msg,
    msg = "Manus API Error: " ++ status_error_text response /\
    msg <> "" /\
    outcome net (call_tool cfg c) =
    inr (PDict [("error", PStr msg); ("status_code", PInt (status_code response))]).
Proof.
  intros Hrecv Hs Hbody. rewrite (receives_outcome cfg c net response Hrecv).
  unfold outcome, run. rewrite (handle_response_failure _ _ Hs), Hbody.
  eexists. split; [reflexivity|]. split; [discriminate|reflexivity].
Qed.

Lemma undecodable_error_envelope_witness :
  receives (Sample.answering Sample.server_error)
    (Sample.call (Call_list_tasks Omitted Omitted Omitted)) Sample.server_error
  /\ exists msg,
       msg = "Manus API Error: " ++ @status_error_text Sample.externals Sample.server_error /\
       msg <> "" /\
       outcome (Sample.answering Sample.server_error)
         (Sample.call (Call_list_tasks Omitted Omitted Omitted)) =
       inr (PDict [("error", PStr msg); ("status_code", PInt 500)]).
Proof.
  split.
  - eexists. split; reflexivity.
  - apply (@undecodable_error_envelope Sample.externals Sample.cfg _ _ Sample.server_error).
    + eexists. split; reflexivity.
    + reflexivity.
    + reflexivity.
Defined.

(* ===================================================================== *)
(** ** The requests the tools send *)
(* ===================================================================== *)

(** Every remote tool sends one request, whatever the network does. *)
Lemma remote_call_requests `{Externals} (cfg : Config) (c : ToolCall) :
  remote c = true ->
  exists req, forall net, requests net (call_tool cfg c) = [req].
Proof.
  intros Hr. destruct (remote_call_run cfg c Hr) as [req Hrun].
  exists req. intros net. unfold requests. now rewrite Hrun.
Qed.

(** The request of [create_task], read off the run. *)
Lemma create_task_request `{Externals} (cfg : Config) (prompt : string)
    (agent_profile task_mode project_id : option string) (net : Request -> Reply) :
  requests net (create_task cfg prompt agent_profile task_mode project_id) =
  [{| req_method := POST;
      req_url := MANUS_API_BASE cfg ++ "/tasks";
      req_headers := _get_headers cfg;
      req_params := None;
      req_json :=
        Some (PDict
          ([("prompt", PStr prompt);
            ("agentProfile", PStr (py_or agent_profile (MANUS_AGENT_PROFILE cfg)));
            ("taskMode", PStr (py_or task_mode "agent"))]
           ++ (if truthy project_id then [("projectId", py_optstr project_id)] else []))%list);
      req_timeout := 60 |}].
Proof.
  unfold requests, create_task, client_post. cbv zeta. rewrite run_send.
  destruct (truthy project_id);
    (destruct (net _); [rewrite (handle_response_world net)|]; reflexivity).
Qed.

(** The request of [list_tasks], read off the run. *)
Lemma list_tasks_request `{Externals} (cfg : Config)
    (status : option string) (limit : option Z) (project_id : option string)
    (net : Request -> Reply) :
  requests net (list_tasks cfg status limit project_id) =
  [{| req_method := GET;
      req_url := MANUS_API_BASE cfg ++ "/tasks";
      req_headers := _get_headers cfg;
      req_params :=
        Some ([("limit", PInt (py_or limit 20%Z))]
              ++ (if truthy status then [("status", PList [py_optstr status])] else [])
              ++ (if truthy project_id then [("project_id", py_optstr project_id)] else []))%list;
      req_json := None;
      req_timeout := 30 |}].
Proof.
  unfold requests, list_tasks, client_get. cbv zeta. rewrite run_send.
  destruct (truthy status); destruct (truthy project_id);
    (destruct (net _); [rewrite (handle_response_world net)|]; reflexivity).
Qed.

(** C4, as stated, fails: [create_task] is called with the agent profile
    [""]; the body carries the configured default, not the value supplied. *)
Lemma empty_agent_profile_replaced :
  exists req,
    requests (Sample.answering Sample.created)
      (Sample.call (Call_create_task "hello" (Passed (Some "")) Omitted Omitted)) = [req]
    /\ json_field req "agentProfile" = Some (PStr "manus-1.6")
    /\ json_field req "agentProfile" <> Some (PStr "").
Proof.
  eexists. split; [reflexivity|]. split; [reflexivity|discriminate].
Qed.

(** C4, as amended.  For every call to [create_task], the request is a POST
    whose JSON body has [agentProfile] equal to the agent profile of the
    caller when one is given and is not the empty string, and equal to the
    configured default when it is left out, [None] or the empty string. *)
Theorem create_task_agent_profile `{Externals} (cfg : Config) (prompt : string)
    (agent_profile task_mode project_id : arg (option string))
    (net : Request -> Reply) :
  exists req,
    requests net (call_tool cfg (Call_create_task prompt agent_profile task_mode project_id))
    = [req]
    /\ req_method req = POST
    /\ (forall s, agent_profile = Passed (Some s) -> s <> "" ->
        json_field req "agentProfile" = Some (PStr s))
    /\ (agent_profile = Omitted \/ agent_profile = Passed None \/
        agent_profile = Passed (Some "") ->
        json_field req "agentProfile" = Some (PStr (MANUS_AGENT_PROFILE cfg))).
Proof.
  eexists. split; [apply create_task_request|]. split; [reflexivity|].
  split.
  - intros s -> Hs. destruct s; [congruence | reflexivity].
  - intros [-> | [-> | ->]]; reflexivity.
Qed.

Lemma create_task_agent_profile_witness :
  exists req,
    requests (Sample.answering Sample.created)
      (Sample.call (Call_create_task "hello" (Passed (Some "manus-1.6-lite")) Omitted Omitted))
    = [req]
    /\ json_field req "agentProfile" = Some (PStr "manus-1.6-lite").
Proof.
  destruct (@create_task_agent_profile Sample.externals Sample.cfg "hello"
              (Passed (Some "manus-1.6-lite")) Omitted Omitted
              (Sample.answering Sample.created))
    as [req [Hsent [_ [Hgiven _]]]].
  exists req. split; [exact Hsent|].
  apply (Hgiven "manus-1.6-lite"); [reflexivity | discriminate].
Defined.

(** C5.  For every call [continue_task(task_id, prompt)], the request is a
    POST whose JSON body holds [prompt], [agentProfile] equal to the
    configured default and [taskId] equal to [task_id], and nothing else; the
    tool takes no agent profile, so a call cannot set another one. *)
Theorem continue_task_payload `{Externals} (cfg : Config) (task_id prompt : string)
    (net : Request -> Reply) :
  requests net (call_tool cfg (Call_continue_task task_id prompt)) =
  [{| req_method := POST;
      req_url := MANUS_API_BASE cfg ++ "/tasks";
      req_headers := _get_headers cfg;
      req_params := None;
      req_json :=
        Some (PDict [("prompt", PStr prompt);
                     ("agentProfile", PStr (MANUS_AGENT_PROFILE cfg));
                     ("taskId", PStr task_id)]);
      req_timeout := 60 |}].
Proof.
  unfold requests, call_tool, continue_task, client_post. cbv zeta.
  rewrite run_send.
  destruct (net _); [rewrite (handle_response_world net)|]; reflexivity.
Qed.

(** C6.  For every call to [create_task] that leaves [task_mode] out, the
    JSON body has [taskMode] equal to ["agent"]. *)
Theorem create_task_default_mode `{Externals} (cfg : Config) (prompt : string)
    (agent_profile project_id : arg (option string)) (net : Request -> Reply) :
  exists req,
    requests net (call_tool cfg (Call_create_task prompt agent_profile Omitted project_id))
    = [req]
    /\ req_method req = POST
    /\ json_field req "taskMode" = Some (PStr "agent").
Proof.
  eexists. split; [apply create_task_request|]. split; reflexivity.
Qed.

(** C7.  [list_tasks] called with no argument sends a GET whose query
    parameters are [limit=20] alone: there is no [status] and no
    [project_id]. *)
Theorem list_tasks_no_arguments `{Externals} (cfg : Config) (net : Request -> Reply) :
  exists req,
    requests net (call_tool cfg (Call_list_tasks Omitted Omitted Omitted)) = [req]
    /\ req_method req = GET
    /\ req_params req = Some [("limit", PInt 20)]
    /\ query_param req "limit" = Some (PInt 20)
    /\ query_param req "status" = None
    /\ query_param req "project_id" = None.
Proof.
  eexists. split; [apply list_tasks_request|]. repeat split.
Qed.

(** C8, as stated, fails: [list_tasks] is called with the status [""]; no
    [status] parameter is sent at all. *)
Lemma empty_status_not_sent :
  exists req,
    requests (Sample.answering Sample.created)
      (Sample.call (Call_list_tasks (Passed (Some "")) Omitted Omitted)) = [req]
    /\ query_param req "status" = None
    /\ query_param req "status" <> Some (PList [PStr ""]).
Proof.
  eexists. split; [reflexivity|]. split; [reflexivity|discriminate].
Qed.

(** C8, as amended.  For every call to [list_tasks] with a status that is
    not the empty string, the [status] query parameter is the one-element
    list holding that status. *)
Theorem list_tasks_status_filter `{Externals} (cfg : Config) (s : string)
    (limit : arg (option Z)) (project_id : arg (option string))
    (net : Request -> Reply) :
  s <> "" ->
  exists req,
    requests net (call_tool cfg (Call_list_tasks (Passed (Some s)) limit project_id)) = [req]
    /\ req_method req = GET
    /\ query_param req "status" = Some (PList [PStr s]).
Proof.
  intros Hs. eexists. split; [apply list_tasks_request|]. split; [reflexivity|].
  destruct s; [congruence | reflexivity].
Qed.

Lemma list_tasks_status_filter_witness :
  exists req,
    requests (Sample.answering Sample.created)
      (Sample.call (Call_list_tasks (Passed (Some "completed")) Omitted Omitted)) = [req]
    /\ req_method req = GET
    /\ query_param req "status" = Some (PList [PStr "completed"]).
Proof.
  apply (@list_tasks_status_filter Sample.externals Sample.cfg "completed").
  discriminate.
Defined.

(** C9.  [get_server_info] sends no request, whatever the network, and
    returns a mapping whose [manus_api_base] and [agent_profile] are the
    configured base URL and agent profile, unchanged. *)
Theorem get_server_info_is_local `{Externals} (cfg : Config) (net : Request -> Reply) :
  requests net (call_tool cfg Call_get_server_info) = []
  /\ exists entries,
       outcome net (call_tool cfg Call_get_server_info) = inr (PDict entries)
       /\ dict_get entries "manus_api_base" = Some (PStr (MANUS_API_BASE cfg))
       /\ dict_get entries "agent_profile" = Some (PStr (MANUS_AGENT_PROFILE cfg)).
Proof.
  split; [reflexivity|]. eexists. split; [reflexivity|]. split; reflexivity.
Qed.

(* ===================================================================== *)
(** ** False values of optional arguments *)
(* ===================================================================== *)

(** The false values of an [Optional[str]] and of an [Optional[int]]. *)
Lemma falsy_optional_str (x : option string) :
  truthy x = false -> x = None \/ x = Some "".
Proof. destruct x as [[|a s]|]; [now right | discriminate | now left]. Qed.

Lemma falsy_optional_int (x : option Z) :
  truthy x = false -> x = None \/ x = Some 0%Z.
Proof. destruct x as [[|p|p]|]; [now right | discriminate | discriminate | now left]. Qed.

Section Falsy.
Context `{Externals}.
Variable cfg : Config.
Variable net : Request -> Reply.

Lemma falsy_agent_profile (x : option string) (prompt : string)
    (task_mode project_id : arg (option string)) :
  truthy x = false ->
  run net (call_tool cfg (Call_create_task prompt (Passed x) task_mode project_id)) =
  run net (call_tool cfg (Call_create_task prompt Omitted task_mode project_id))
  /\ exists req,
      requests net (call_tool cfg (Call_create_task prompt (Passed x) task_mode project_id))
      = [req]
      /\ json_field req "agentProfile" = Some (PStr (MANUS_AGENT_PROFILE cfg)).
Proof.
  intros Hx. destruct (falsy_optional_str x Hx) as [-> | ->].
  - split; [reflexivity|]. eexists. split; [apply create_task_request | reflexivity].
  - split; [reflexivity|]. eexists. split; [apply create_task_request | reflexivity].
Qed.

Lemma falsy_task_mode (x : option string) (prompt : string)
    (agent_profile project_id : arg (option string)) :
  truthy x = false ->
  run net (call_tool cfg (Call_create_task prompt agent_profile (Passed x) project_id)) =
  run net (call_tool cfg (Call_create_task prompt agent_profile Omitted project_id))
  /\ exists req,
      requests net (call_tool cfg (Call_create_task prompt agent_profile (Passed x) project_id))
      = [req]
      /\ json_field req "taskMode" = Some (PStr "agent").
Proof.
  intros Hx. destruct (falsy_optional_str x Hx) as [-> | ->].
  - split; [reflexivity|]. eexists. split; [apply create_task_request | reflexivity].
  - split; [reflexivity|]. eexists. split; [apply create_task_request | reflexivity].
Qed.

Lemma falsy_create_project_id (x : option string) (prompt : string)
    (agent_profile task_mode : arg (option string)) :
  truthy x = false ->
  run net (call_tool cfg (Call_create_task prompt agent_profile task_mode (Passed x))) =
  run net (call_tool cfg (Call_create_task prompt agent_profile task_mode Omitted))
  /\ exists req,
      requests net (call_tool cfg (Call_create_task prompt agent_profile task_mode (Passed x)))
      = [req]
      /\ json_field req "projectId" = None.
Proof.
  intros Hx. destruct (falsy_optional_str x Hx) as [-> | ->].
  - split; [reflexivity|]. eexists. split; [apply create_task_request | reflexivity].
  - split; [reflexivity|]. eexists. split; [apply create_task_request | reflexivity].
Qed.

Lemma falsy_status (x : option string) (limit : arg (option Z))
    (project_id : arg (option string)) :
  truthy x = false ->
  run net (call_tool cfg (Call_list_tasks (Passed x) limit project_id)) =
  run net (call_tool cfg (Call_list_tasks Omitted limit project_id))
  /\ exists req,
      requests net (call_tool cfg (Call_list_tasks (Passed x) limit project_id)) = [req]
      /\ query_param req "status" = None.
Proof.
  intros Hx.
  assert (Hq : forall s : option string, truthy s = false ->
            query_param
              {| req_method := GET; req_url := MANUS_API_BASE cfg ++ "/tasks";
                 req_headers := _get_headers cfg;
                 req_params :=
                   Some ([("limit", PInt (py_or (bind_arg (Some 20%Z) limit) 20%Z))]
                         ++ (if truthy s then [("status", PList [py_optstr s])] else [])
                         ++ (if truthy (bind_arg None project_id)
                             then [("project_id", py_optstr (bind_arg None project_id))]
                             else []))%list;
                 req_json := None; req_timeout := 30 |} "status" = None).
  { intros s Hs. unfold query_param. cbn [req_params]. rewrite Hs.
    destruct (truthy (bind_arg None project_id)); reflexivity. }
  destruct (falsy_optional_str x Hx) as [-> | ->].
  - split; [reflexivity|]. eexists. split; [apply list_tasks_request|].
    now apply Hq.
  - split; [reflexivity|]. eexists. split; [apply list_tasks_request|].
    now apply Hq.
Qed.

Lemma falsy_limit (x : option Z) (status project_id : arg (option string)) :
  truthy x = false ->
  run net (call_tool cfg (Call_list_tasks status (Passed x) project_id)) =
  run net (call_tool cfg (Call_list_tasks status Omitted project_id))
  /\ exists req,
      requests net (call_tool cfg (Call_list_tasks status (Passed x) project_id)) = [req]
      /\ query_param req "limit" = Some (PInt 20).
Proof.
  intros Hx. destruct (falsy_optional_int x Hx) as [-> | ->].
  - split; [reflexivity|]. eexists. split; [apply list_tasks_request | reflexivity].
  - split; [reflexivity|]. eexists. split; [apply list_tasks_request | reflexivity].
Qed.

Lemma falsy_list_project_id (x : option string) (status : arg (option string))
    (limit : arg (option Z)) :
  truthy x = false ->
  run net (call_tool cfg (Call_list_tasks status limit (Passed x))) =
  run net (call_tool cfg (Call_list_tasks status limit Omitted))
  /\ exists req,
      requests net (call_tool cfg (Call_list_tasks status limit (Passed x))) = [req]
      /\ query_param req "project_id" = None.
Proof.
  intros Hx.
  assert (Hq : forall s : option string, truthy s = false ->
            query_param
              {| req_method := GET; req_url := MANUS_API_BASE cfg ++ "/tasks";
                 req_headers := _get_headers cfg;
                 req_params :=
                   Some ([("limit", PInt (py_or (bind_arg (Some 20%Z) limit) 20%Z))]
                         ++ (if truthy (bind_arg None status)
                             then [("status", PList [py_optstr (bind_arg None status)])]
                             else [])
                         ++ (if truthy s then [("project_id", py_optstr s)] else []))%list;
                 req_json := None; req_timeout := 30 |} "project_id" = None).
  { intros s Hs. unfold query_param. cbn [req_params]. rewrite Hs.
    destruct (truthy (bind_arg None status)); reflexivity. }
  destruct (falsy_optional_str x Hx) as [-> | ->].
  - split; [reflexivity|]. eexists. split; [apply list_tasks_request|].
    now apply Hq.
  - split; [reflexivity|]. eexists. split; [apply list_tasks_request|].
    now apply Hq.
Qed.

End Falsy.

(** C10.  A false value of an optional argument ([None] or the empty
    string for [agent_profile], [task_mode], [project_id] and [status];
    [None] or [0] for [limit]) has the effect of leaving the argument out:
    the run (requests sent and result) is the one of the call without the
    argument, and in the request the default stands in ([agentProfile] the
    configured default, [taskMode] ["agent"], [limit] [20]) or the field is
    absent ([projectId], [status], [project_id]). *)
Theorem falsy_arguments_as_omitted `{Externals} (cfg : Config) (net : Request -> Reply) :
  (forall (x : option string) prompt task_mode project_id,
      truthy x = false ->
      run net (call_tool cfg (Call_create_task prompt (Passed x) task_mode project_id)) =
      run net (call_tool cfg (Call_create_task prompt Omitted task_mode project_id))
      /\ exists req,
          requests net (call_tool cfg (Call_create_task prompt (Passed x) task_mode project_id))
          = [req]
          /\ json_field req "agentProfile" = Some (PStr (MANUS_AGENT_PROFILE cfg)))
  /\ (forall (x : option string) prompt agent_profile project_id,
      truthy x = false ->
      run net (call_tool cfg (Call_create_task prompt agent_profile (Passed x) project_id)) =
      run net (call_tool cfg (Call_create_task prompt agent_profile Omitted project_id))
      /\ exists req,
          requests net (call_tool cfg (Call_create_task prompt agent_profile (Passed x) project_id))
          = [req]
          /\ json_field req "taskMode" = Some (PStr "agent"))
  /\ (forall (x : option string) prompt agent_profile task_mode,
      truthy x = false ->
      run net (call_tool cfg (Call_create_task prompt agent_profile task_mode (Passed x))) =
      run net (call_tool cfg (Call_create_task prompt agent_profile task_mode Omitted))
      /\ exists req,
          requests net (call_tool cfg (Call_create_task prompt agent_profile task_mode (Passed x)))
          = [req]
          /\ json_field req "projectId" = None)
  /\ (forall (x : option string) limit project_id,
      truthy x = false ->
      run net (call_tool cfg (Call_list_tasks (Passed x) limit project_id)) =
      run net (call_tool cfg (Call_list_tasks Omitted limit project_id))
      /\ exists req,
          requests net (call_tool cfg (Call_list_tasks (Passed x) limit project_id)) = [req]
          /\ query_param req "status" = None)
  /\ (forall (x : option Z) status project_id,
      truthy x = false ->
      run net (call_tool cfg (Call_list_tasks status (Passed x) project_id)) =
      run net (call_tool cfg (Call_list_tasks status Omitted project_id))
      /\ exists req,
          requests net (call_tool cfg (Call_list_tasks status (Passed x) project_id)) = [req]
          /\ query_param req "limit" = Some (PInt 20))
  /\ (forall (x : option string) status limit,
      truthy x = false ->
      run net (call_tool cfg (Call_list_tasks status limit (Passed x))) =
      run net (call_tool cfg (Call_list_tasks status limit Omitted))
      /\ exists req,
          requests net (call_tool cfg (Call_list_tasks status limit (Passed x))) = [req]
          /\ query_param req "project_id" = None).
Proof.
  refine (conj _ (conj _ (conj _ (conj _ (conj _ _))))); intros x; intros.
  - now apply falsy_agent_profile.
  - now apply falsy_task_mode.
  - now apply falsy_create_project_id.
  - now apply falsy_status.
  - now apply falsy_limit.
  - now apply falsy_list_project_id.
Qed.

Lemma falsy_arguments_as_omitted_witness :
  run (Sample.answering Sample.created)
    (Sample.call (Call_create_task "hello" (Passed (Some "")) Omitted Omitted)) =
  run (Sample.answering Sample.created)
    (Sample.call (Call_create_task "hello" Omitted Omitted Omitted))
  /\ run (Sample.answering Sample.created)
       (Sample.call (Call_list_tasks Omitted (Passed (Some 0%Z)) Omitted)) =
     run (Sample.answering Sample.created)
       (Sample.call (Call_list_tasks Omitted Omitted Omitted)).
Proof.
  destruct (@falsy_arguments_as_omitted Sample.externals Sample.cfg
              (Sample.answering Sample.created))
    as [Hprofile [_ [_ [_ [Hlimit _]]]]].
  split.
  - apply (Hprofile (Some "")). reflexivity.
  - apply (Hlimit (Some 0%Z)). reflexivity.
Defined.

(* ===================================================================== *)
(** ** Further properties of the bridge *)
(* ===================================================================== *)

(** The requests of the two tools not read off so far. *)
Lemma get_task_status_request `{Externals} (cfg : Config) (task_id : string)
    (net : Request -> Reply) :
  requests net (get_task_status cfg task_id) =
  [{| req_method := GET;
      req_url := MANUS_API_BASE cfg ++ "/tasks/" ++ task_id;
      req_headers := _get_headers cfg;
      req_params := None;
      req_json := None;
      req_timeout := 30 |}].
Proof.
  unfold requests, get_task_status, client_get. cbv zeta. rewrite run_send.
  destruct (net _); [rewrite (handle_response_world net)|]; reflexivity.
Qed.

Lemma continue_task_request `{Externals} (cfg : Config) (task_id prompt : string)
    (net : Request -> Reply) :
  requests net (continue_task cfg task_id prompt) =
  [{| req_method := POST;
      req_url := MANUS_API_BASE cfg ++ "/tasks";
      req_headers := _get_headers cfg;
      req_params := None;
      req_json :=
        Some (PDict [("prompt", PStr prompt);
                     ("agentProfile", PStr (MANUS_AGENT_PROFILE cfg));
                     ("taskId", PStr task_id)]);
      req_timeout := 60 |}].
Proof.
  unfold requests, continue_task, client_post. cbv zeta. rewrite run_send.
  destruct (net _); [rewrite (handle_response_world net)|]; reflexivity.
Qed.

(** Case analysis on a tool call, with the request list of each remote tool
    rewritten to the request it sends. *)
Ltac by_tool c H :=
  destruct c; cbn [call_tool] in H;
  [ rewrite create_task_request in H
  | rewrite get_task_status_request in H
  | rewrite list_tasks_request in H
  | rewrite continue_task_request in H
  | ].

(** X1.  Every request that any tool sends carries the same two headers:
    [API_KEY] with the configured key, and [Content-Type: application/json]. *)
Theorem every_request_carries_headers `{Externals} (cfg : Config) (c : ToolCall)
    (net : Request -> Reply) (req : Request) :
  In req (requests net (call_tool cfg c)) ->
  req_headers req =
  [("API_KEY", MANUS_API_KEY cfg); ("Content-Type", "application/json")].
Proof.
  intros Hin. by_tool c Hin.
  1-4: destruct Hin as [<- | []]; reflexivity.
  destruct Hin.
Qed.

Lemma every_request_carries_headers_witness :
  exists req,
    In req (requests (Sample.answering Sample.created)
              (Sample.call (Call_get_task_status "t-1")))
    /\ req_headers req = [("API_KEY", ""); ("Content-Type", "application/json")].
Proof.
  eexists. split.
  - left. reflexivity.
  - apply (@every_request_carries_headers Sample.externals Sample.cfg
             (Call_get_task_status "t-1") (Sample.answering Sample.created)).
    left. reflexivity.
Defined.

(** X2.  A transport failure is not turned into a result: when the client
    raises for the request a tool sent, the tool raises the same exception. *)
Theorem transport_failure_propagates `{Externals} (cfg : Config) (c : ToolCall)
    (net : Request -> Reply) (req : Request) (exc : PyExc) :
  requests net (call_tool cfg c) = [req] ->
  net req = Failed exc ->
  outcome net (call_tool cfg c) = inl exc.
Proof.
  intros Hsent Hnet. destruct (remote c) eqn:Hr.
  - destruct (remote_call_run cfg c Hr) as [req0 Hrun].
    unfold requests in Hsent. unfold outcome. rewrite Hrun in *. cbn in *.
    injection Hsent as ->. now rewrite Hnet.
  - destruct c; try discriminate Hr. discriminate Hsent.
Qed.

Lemma transport_failure_propagates_witness :
  exists req,
    requests Sample.unreachable (Sample.call (Call_list_tasks Omitted Omitted Omitted)) = [req]
    /\ outcome Sample.unreachable (Sample.call (Call_list_tasks Omitted Omitted Omitted))
       = inl (TransportError "ConnectError").
Proof.
  eexists. split.
  - reflexivity.
  - eapply (@transport_failure_propagates Sample.externals Sample.cfg).
    + reflexivity.
    + reflexivity.
Defined.



(** X4.  For a non-2xx response whose JSON body is a mapping with a string
    under ["message"], the result is the error mapping with that string
    after the prefix ["Manus API Error: "], and the status of the response;
    the text of the HTTP error is not used. *)
Theorem error_message_from_body `{Externals} (cfg : Config) (c : ToolCall)
    (net : Request -> Reply) (response : Response)
    (entries : list (string * pyval)) (message : string) :
  receives net (call_tool cfg c) response ->
  is_success response = false ->
  body_json response = Some (PDict entries) ->
  dict_get entries "message" = Some (PStr message) ->
  outcome net (call_tool cfg c) =
  inr (PDict [("error", PStr ("Manus API Error: " ++ message));
              ("status_code", PInt (status_code response))]).
Proof.
  intros Hrecv Hs Hbody Hmsg. rewrite (receives_outcome cfg c net response Hrecv).
  unfold outcome, run. rewrite (handle_response_failure _ _ Hs), Hbody, Hmsg.
  reflexivity.
Qed.

Lemma error_message_from_body_witness :
  outcome (Sample.answering Sample.not_found)
    (Sample.call (Call_get_task_status "t-1")) =
  inr (PDict [("error", PStr "Manus API Error: not found");
              ("status_code", PInt 404)]).
Proof.
  apply (@error_message_from_body Sample.externals Sample.cfg _ _ Sample.not_found
           [("message", PStr "not found")] "not found").
  - eexists. split; reflexivity.
  - reflexivity.
  - reflexivity.
  - reflexivity.
Defined.

(** X5.  For a non-2xx response whose JSON body decodes but is not a
    mapping, or is a mapping without ["message"], the error text falls back
    to the text of the HTTP error, after the same prefix. *)
Theorem error_message_fallback `{Externals} (cfg : Config) (c : ToolCall)
    (net : Request -> Reply) (response : Response) (body : pyval) :
  receives net (call_tool cfg c) response ->
  is_success response = false ->
  body_json response = Some body ->
  (forall entries, body = PDict entries -> dict_get entries "message" = None) ->
  outcome net (call_tool cfg c) =
  inr (PDict [("error", PStr ("Manus API Error: " ++ status_error_text response));
              ("status_code", PInt (status_code response))]).
Proof.
  intros Hrecv Hs Hbody Hnone. rewrite (receives_outcome cfg c net response Hrecv).
  unfold outcome, run. rewrite (handle_response_failure _ _ Hs), Hbody.
  destruct body as [| | | | | |entries]; try reflexivity.
  now rewrite (Hnone entries eq_refl).
Qed.

Lemma error_message_fallback_witness :
  outcome (Sample.answering Sample.list_body)
    (Sample.call (Call_get_task_status "t-1")) =
  inr (PDict [("error", PStr "Manus API Error: HTTP error 502 Bad Gateway");
              ("status_code", PInt 502)]).
Proof.
  apply (@error_message_fallback Sample.externals Sample.cfg _ _ Sample.list_body
           (PList [PStr "upstream"])).
  - eexists. split; reflexivity.
  - reflexivity.
  - reflexivity.
  - intros entries Heq. discriminate Heq.
Defined.

(** X6.  A ["message"] that is JSON [null] is not skipped: the error text
    is ["Manus API Error: None"]. *)
Theorem error_message_null `{Externals} (cfg : Config) (c : ToolCall)
    (net : Request -> Reply) (response : Response)
    (entries : list (string * pyval)) :
  receives net (call_tool cfg c) response ->
  is_success response = false ->
  body_json response = Some (PDict entries) ->
  dict_get entries "message" = Some PNone ->
  outcome net (call_tool cfg c) =
  inr (PDict [("error", PStr "Manus API Error: None");
              ("status_code", PInt (status_code response))]).
Proof.
  intros Hrecv Hs Hbody Hmsg. rewrite (receives_outcome cfg c net response Hrecv).
  unfold outcome, run. rewrite (handle_response_failure _ _ Hs), Hbody, Hmsg.
  reflexivity.
Qed.

Lemma error_message_null_witness :
  outcome (Sample.answering Sample.null_message)
    (Sample.call (Call_continue_task "t-1" "go on")) =
  inr (PDict [("error", PStr "Manus API Error: None");
              ("status_code", PInt 422)]).
Proof.
  apply (@error_message_null Sample.externals Sample.cfg _ _ Sample.null_message
           [("message", PNone)]).
  - eexists. split; reflexivity.
  - reflexivity.
  - reflexivity.
  - reflexivity.
Defined.

(** X7.  [get_task_status] sends one GET to [{base}/tasks/{task_id}], the
    task id appended as it is given, with no query parameter, no body and a
    timeout of 30 seconds. *)
Theorem get_task_status_sends `{Externals} (cfg : Config) (task_id : string)
    (net : Request -> Reply) :
  requests net (call_tool cfg (Call_get_task_status task_id)) =
  [{| req_method := GET;
      req_url := MANUS_API_BASE cfg ++ "/tasks/" ++ task_id;
      req_headers := _get_headers cfg;
      req_params := None;
      req_json := None;
      req_timeout := 30 |}].
Proof. apply get_task_status_request. Qed.

(** X8.  When [create_task] is given a non-empty agent profile, task mode
    and project id, the JSON body is exactly the four fields [prompt],
    [agentProfile], [taskMode], [projectId], in this order, each with the
    value given; the prompt is not checked (it may be empty). *)
Theorem create_task_full_body `{Externals} (cfg : Config)
    (prompt profile mode project : string) (net : Request -> Reply) :
  profile <> "" -> mode <> "" -> project <> "" ->
  exists req,
    requests net
      (call_tool cfg (Call_create_task prompt (Passed (Some profile))
                        (Passed (Some mode)) (Passed (Some project)))) = [req]
    /\ req_method req = POST
    /\ req_json req =
       Some (PDict [("prompt", PStr prompt); ("agentProfile", PStr profile);
                    ("taskMode", PStr mode); ("projectId", PStr project)]).
Proof.
  intros Hp Hm Hj. eexists. split; [apply create_task_request|].
  split; [reflexivity|].
  destruct profile; [congruence|]. destruct mode; [congruence|].
  destruct project; [congruence|]. reflexivity.
Qed.

Lemma create_task_full_body_witness :
  exists req,
    requests (Sample.answering Sample.created)
      (Sample.call (Call_create_task "" (Passed (Some "manus-1.6-max"))
                      (Passed (Some "chat")) (Passed (Some "p-7")))) = [req]
    /\ req_method req = POST
    /\ req_json req =
       Some (PDict [("prompt", PStr ""); ("agentProfile", PStr "manus-1.6-max");
                    ("taskMode", PStr "chat"); ("projectId", PStr "p-7")]).
Proof.
  apply (@create_task_full_body Sample.externals Sample.cfg
           "" "manus-1.6-max" "chat" "p-7"); discriminate.
Defined.

(** X9.  [create_task] does not check the task mode: any non-empty string,
    one of ['agent', 'chat', 'adaptive'] or not, is sent as [taskMode]. *)
Theorem create_task_mode_unchecked `{Externals} (cfg : Config) (prompt mode : string)
    (agent_profile project_id : arg (option string)) (net : Request -> Reply) :
  mode <> "" ->
  exists req,
    requests net
      (call_tool cfg (Call_create_task prompt agent_profile (Passed (Some mode)) project_id))
    = [req]
    /\ json_field req "taskMode" = Some (PStr mode).
Proof.
  intros Hm. eexists. split; [apply create_task_request|].
  destruct mode; [congruence | reflexivity].
Qed.

Lemma create_task_mode_unchecked_witness :
  exists req,
    requests (Sample.answering Sample.created)
      (Sample.call (Call_create_task "hello" Omitted (Passed (Some "turbo")) Omitted))
    = [req]
    /\ json_field req "taskMode" = Some (PStr "turbo").
Proof.
  apply (@create_task_mode_unchecked Sample.externals Sample.cfg "hello" "turbo").
  discriminate.
Defined.

(** X10.  The JSON body of [create_task] has the keys [prompt],
    [agentProfile], [taskMode], followed by [projectId] or not, and no other
    key (in particular no [taskId]), whatever the arguments; [prompt] holds
    the prompt as given. *)
Theorem create_task_body_keys `{Externals} (cfg : Config) (prompt : string)
    (agent_profile task_mode project_id : arg (option string))
    (net : Request -> Reply) :
  exists req entries,
    requests net (call_tool cfg (Call_create_task prompt agent_profile task_mode project_id))
    = [req]
    /\ req_json req = Some (PDict entries)
    /\ (dict_keys entries = ["prompt"; "agentProfile"; "taskMode"]
        \/ dict_keys entries = ["prompt"; "agentProfile"; "taskMode"; "projectId"])
    /\ dict_get entries "prompt" = Some (PStr prompt)
    /\ dict_get entries "taskId" = None.
Proof.
  eexists. eexists. split; [apply create_task_request|].
  split; [reflexivity|].
  destruct (truthy (bind_arg None project_id)); cbn; auto.
Qed.

(** X11.  [list_tasks] does not check the limit: any integer other than
    [0], negative ones too, is sent as [limit]. *)
Theorem list_tasks_limit_unchecked `{Externals} (cfg : Config) (n : Z)
    (status project_id : arg (option string)) (net : Request -> Reply) :
  n <> 0%Z ->
  exists req,
    requests net (call_tool cfg (Call_list_tasks status (Passed (Some n)) project_id)) = [req]
    /\ query_param req "limit" = Some (PInt n).
Proof.
  intros Hn. eexists. split; [apply list_tasks_request|].
  destruct n; [congruence | reflexivity | reflexivity].
Qed.

Lemma list_tasks_limit_unchecked_witness :
  exists req,
    requests (Sample.answering Sample.created)
      (Sample.call (Call_list_tasks Omitted (Passed (Some (-5)%Z)) Omitted)) = [req]
    /\ query_param req "limit" = Some (PInt (-5)).
Proof.
  apply (@list_tasks_limit_unchecked Sample.externals Sample.cfg (-5)%Z).
  discriminate.
Defined.

(** X12.  When [list_tasks] is given a non-empty status, a limit other
    than [0] and a non-empty project id, the query parameters are exactly
    [limit], [status] (a one-element list) and [project_id] (a plain
    string), in this order. *)
Theorem list_tasks_full_params `{Externals} (cfg : Config) (status project : string)
    (n : Z) (net : Request -> Reply) :
  status <> "" -> n <> 0%Z -> project <> "" ->
  exists req,
    requests net
      (call_tool cfg (Call_list_tasks (Passed (Some status)) (Passed (Some n))
                        (Passed (Some project)))) = [req]
    /\ req_method req = GET
    /\ req_params req =
       Some [("limit", PInt n); ("status", PList [PStr status]);
             ("project_id", PStr project)].
Proof.
  intros Hs Hn Hp. eexists. split; [apply list_tasks_request|].
  split; [reflexivity|].
  destruct status; [congruence|]. destruct project; [congruence|].
  destruct n; [congruence | reflexivity | reflexivity].
Qed.

Lemma list_tasks_full_params_witness :
  exists req,
    requests (Sample.answering Sample.created)
      (Sample.call (Call_list_tasks (Passed (Some "running")) (Passed (Some 5%Z))
                      (Passed (Some "p-7")))) = [req]
    /\ req_method req = GET
    /\ req_params req =
       Some [("limit", PInt 5); ("status", PList [PStr "running"]);
             ("project_id", PStr "p-7")].
Proof.
  apply (@list_tasks_full_params Sample.externals Sample.cfg "running" "p-7" 5%Z);
    discriminate.
Defined.

(** X13.  Every request of every tool has one of two forms: a POST to
    [{base}/tasks] with a JSON mapping as body, no query parameter and a
    timeout of 60 seconds, or a GET with no body and a timeout of 30
    seconds, to [{base}/tasks] with query parameters or to
    [{base}/tasks/{id}] without. *)
Theorem request_forms `{Externals} (cfg : Config) (c : ToolCall)
    (net : Request -> Reply) (req : Request) :
  In req (requests net (call_tool cfg c)) ->
  (req_method req = POST
   /\ req_url req = MANUS_API_BASE cfg ++ "/tasks"
   /\ req_params req = None
   /\ (exists entries, req_json req = Some (PDict entries))
   /\ req_timeout req = 60%float)
  \/
  (req_method req = GET
   /\ req_json req = None
   /\ req_timeout req = 30%float
   /\ ((req_url req = MANUS_API_BASE cfg ++ "/tasks"
        /\ exists params, req_params req = Some params)
       \/ (exists id, req_url req = MANUS_API_BASE cfg ++ "/tasks/" ++ id
           /\ req_params req = None))).
Proof.
  intros Hin. by_tool c Hin.
  - destruct Hin as [<- | []]. left. cbn. repeat (split; [reflexivity|]).
    split; [eexists; reflexivity | reflexivity].
  - destruct Hin as [<- | []]. right. cbn. repeat (split; [reflexivity|]).
    right. eexists. split; reflexivity.
  - destruct Hin as [<- | []]. right. cbn. repeat (split; [reflexivity|]).
    left. split; [reflexivity | eexists; reflexivity].
  - destruct Hin as [<- | []]. left. cbn. repeat (split; [reflexivity|]).
    split; [eexists; reflexivity | reflexivity].
  - destruct Hin.
Qed.

Lemma request_forms_witness :
  exists req,
    In req (requests (Sample.answering Sample.created)
              (Sample.call (Call_continue_task "t-1" "go on")))
    /\ req_method req = POST.
Proof.
  eexists. split; [left; reflexivity|].
  destruct (@request_forms Sample.externals Sample.cfg
              (Call_continue_task "t-1" "go on") (Sample.answering Sample.created)
              _ (or_introl eq_refl))
    as [[Hpost _] | [Hget _]].
  - exact Hpost.
  - discriminate Hget.
Defined.

(** X14.  The agent profile that [create_task] falls back to comes from
    the environment read at start-up: the value of [MANUS_AGENT_PROFILE]
    when the variable is set, even to the empty string, and ["manus-1.6"]
    only when it is not set. *)
Theorem create_task_profile_from_environment `{Externals}
    (environ : string -> option string) (prompt : string)
    (task_mode project_id : arg (option string)) (net : Request -> Reply) :
  exists req,
    requests net
      (call_tool (load_config environ) (Call_create_task prompt Omitted task_mode project_id))
    = [req]
    /\ (forall p, environ "MANUS_AGENT_PROFILE" = Some p ->
        json_field req "agentProfile" = Some (PStr p))
    /\ (environ "MANUS_AGENT_PROFILE" = None ->
        json_field req "agentProfile" = Some (PStr "manus-1.6")).
Proof.
  eexists. split; [apply create_task_request|].
  split.
  - intros p Hp. unfold json_field. cbn. unfold environ_get. now rewrite Hp.
  - intros Hp. unfold json_field. cbn. unfold environ_get. now rewrite Hp.
Qed.

Lemma create_task_profile_from_environment_witness :
  exists req,
    requests (Sample.answering Sample.created)
      (@call_tool Sample.externals (load_config Sample.empty_profile_environ)
         (Call_create_task "hello" Omitted Omitted Omitted)) = [req]
    /\ json_field req "agentProfile" = Some (PStr "").
Proof.
  destruct (@create_task_profile_from_environment Sample.externals
              Sample.empty_profile_environ "hello" Omitted Omitted
              (Sample.answering Sample.created))
    as [req [Hsent [Hset _]]].
  exists req. split; [exact Hsent|]. apply Hset. reflexivity.
Defined.

(** X15.  A missing API key stops nothing: when [MANUS_API_KEY] is not
    set, every request is still sent, with an empty [API_KEY] header. *)
Theorem unset_key_sends_empty_header `{Externals}
    (environ : string -> option string) (c : ToolCall) (net : Request -> Reply) :
  environ "MANUS_API_KEY" = None ->
  remote c = true ->
  exists req,
    requests net (call_tool (load_config environ) c) = [req]
    /\ req_headers req = [("API_KEY", ""); ("Content-Type", "application/json")].
Proof.
  intros Hkey Hr.
  assert (Hh : _get_headers (load_config environ)
               = [("API_KEY", ""); ("Content-Type", "application/json")])
    by (unfold _get_headers, load_config, environ_get; cbn; now rewrite Hkey).
  destruct c; try discriminate Hr; eexists; cbn [call_tool].
  - split; [apply create_task_request | exact Hh].
  - split; [apply get_task_status_request | exact Hh].
  - split; [apply list_tasks_request | exact Hh].
  - split; [apply continue_task_request | exact Hh].
Qed.

Lemma unset_key_sends_empty_header_witness :
  exists req,
    requests (Sample.answering Sample.created)
      (@call_tool Sample.externals (load_config (fun _ => None))
         (Call_get_task_status "t-1")) = [req]
    /\ req_headers req = [("API_KEY", ""); ("Content-Type", "application/json")].
Proof.
  apply (@unset_key_sends_empty_header Sample.externals (fun _ => None)
           (Call_get_task_status "t-1")); reflexivity.
Defined.

(** X16.  [get_server_info] returns exactly five fields, [server_name],
    [version], [description], [manus_api_base] and [agent_profile]; the API
    key is no part of the result, which is the same for two configurations
    that differ in the key alone, on any network. *)
Theorem get_server_info_hides_key `{Externals} (cfg1 cfg2 : Config)
    (net1 net2 : Request -> Reply) :
  MANUS_API_BASE cfg1 = MANUS_API_BASE cfg2 ->
  MANUS_AGENT_PROFILE cfg1 = MANUS_AGENT_PROFILE cfg2 ->
  outcome net1 (call_tool cfg1 Call_get_server_info) =
  outcome net2 (call_tool cfg2 Call_get_server_info)
  /\ exists entries,
       outcome net1 (call_tool cfg1 Call_get_server_info) = inr (PDict entries)
       /\ dict_keys entries =
          ["server_name"; "version"; "description"; "manus_api_base"; "agent_profile"].
Proof.
  intros Hbase Hprofile. split.
  - unfold outcome, run, call_tool, get_server_info. cbn.
    now rewrite Hbase, Hprofile.
  - eexists. split; reflexivity.
Qed.

Lemma get_server_info_hides_key_witness :
  outcome (Sample.answering Sample.created)
    (@call_tool Sample.externals
       {| MANUS_API_KEY := "secret";
          MANUS_API_BASE := MANUS_API_BASE Sample.cfg;
          MANUS_AGENT_PROFILE := MANUS_AGENT_PROFILE Sample.cfg |}
       Call_get_server_info) =
  outcome Sample.unreachable (Sample.call Call_get_server_info).
Proof.
  apply (@get_server_info_hides_key Sample.externals
           {| MANUS_API_KEY := "secret";
              MANUS_API_BASE := MANUS_API_BASE Sample.cfg;
              MANUS_AGENT_PROFILE := MANUS_AGENT_PROFILE Sample.cfg |}
           Sample.cfg (Sample.answering Sample.created) Sample.unreachable);
    reflexivity.
Defined.

(* ===================================================================== *)
(** ** Assignment to a dict *)
(* ===================================================================== *)

(** X17.  Reading a key after [d[key] = value] gives [value], and every
    other key reads as before. *)
Theorem dict_get_after_set (entries : list (string * pyval)) (key : string)
    (value : pyval) :
  dict_get (dict_set entries key value) key = Some value
  /\ forall other, other <> key ->
       dict_get (dict_set entries key value) other = dict_get entries other.
Proof.
  split.
  - induction entries as [|[k v] rest IH]; cbn.
    + now rewrite String.eqb_refl.
    + destruct (String.eqb k key) eqn:E; cbn; now rewrite E.
  - intros other Hneq. induction entries as [|[k v] rest IH]; cbn.
    + destruct (String.eqb_spec key other); [congruence | reflexivity].
    + destruct (String.eqb_spec k key) as [-> | Hk]; cbn.
      * destruct (String.eqb_spec key other); [congruence | reflexivity].
      * destruct (String.eqb k other); [reflexivity | exact IH].
Qed.

Lemma dict_get_after_set_witness :
  dict_get (dict_set [("limit", PInt 20)] "status" (PList [PStr "done"])) "limit"
  = Some (PInt 20).
Proof.
  apply (proj2 (dict_get_after_set [("limit", PInt 20)] "status" (PList [PStr "done"]))).
  discriminate.
Defined.

(** The keys after an assignment. *)
Lemma dict_set_keys (entries : list (string * pyval)) (key : string) (value : pyval) :
  (In key (dict_keys entries) ->
   dict_keys (dict_set entries key value) = dict_keys entries)
  /\ (~ In key (dict_keys entries) ->
      dict_keys (dict_set entries key value) = (dict_keys entries ++ [key])%list).
Proof.
  induction entries as [|[k v] rest [IHin IHout]]; cbn.
  - split; [intros [] | reflexivity].
  - destruct (String.eqb_spec k key) as [-> | Hk]; cbn.
    + split; [reflexivity | intros Hn; exfalso; apply Hn; now left].
    + split.
      * intros [Heq | Hin]; [congruence|]. f_equal. now apply IHin.
      * intros Hn. f_equal. apply IHout. intros Hin. apply Hn. now right.
Qed.

(** X18.  An assignment [d[key] = value] keeps the keys in their order: a
    key that is present stays in its place, a new key goes last; a dict whose
    keys are distinct stays so. *)
Theorem dict_set_keeps_keys (entries : list (string * pyval)) (key : string)
    (value : pyval) :
  NoDup (dict_keys entries) ->
  NoDup (dict_keys (dict_set entries key value))
  /\ (In key (dict_keys entries) ->
      dict_keys (dict_set entries key value) = dict_keys entries)
  /\ (~ In key (dict_keys entries) ->
      dict_keys (dict_set entries key value) = (dict_keys entries ++ [key])%list).
Proof.
  intros Hnd. destruct (dict_set_keys entries key value) as [Hin Hout].
  split; [|split; assumption].
  destruct (in_dec string_dec key (dict_keys entries)) as [Hk | Hk].
  - now rewrite (Hin Hk).
  - rewrite (Hout Hk). apply NoDup_app; [exact Hnd | repeat constructor; intros [] | ].
    intros x Hx [<- | []]. contradiction.
Qed.

Lemma dict_set_keeps_keys_witness :
  NoDup (dict_keys (dict_set [("limit", PInt 20)] "status" (PList [PStr "done"])))
  /\ dict_keys (dict_set [("limit", PInt 20)] "status" (PList [PStr "done"]))
     = ["limit"; "status"].
Proof.
  destruct (dict_set_keeps_keys [("limit", PInt 20)] "status" (PList [PStr "done"]))
    as [Hnd [_ Hnew]].
  - repeat constructor. intros [].
  - split; [exact Hnd|]. apply Hnew. intros [Heq | []]. discriminate Heq.
Defined.

(** X19.  A remote tool sends exactly one request, the same whatever the
    network does with it: there is no second attempt after an error status
    or a transport failure. *)
Theorem one_request_per_call `{Externals} (cfg : Config) (c : ToolCall) :
  remote c = true ->
  exists req, forall net, requests net (call_tool cfg c) = [req].
Proof.
  intros Hr. destruct (remote_call_run cfg c Hr) as [req Hrun].
  exists req. intros net. unfold requests. now rewrite Hrun.
Qed.

Lemma one_request_per_call_witness :
  exists req, forall net,
    requests net (Sample.call (Call_continue_task "t-1" "go on")) = [req].
Proof.
  apply (@one_request_per_call Sample.externals Sample.cfg
           (Call_continue_task "t-1" "go on")).
  reflexivity.
Defined.
